(** * Checklist: a checkbox group rendered from option records

    Shallow embedding of [src/components/input/Checklist.js].  The component
    is a stateless render function of its props: [listItem] maps one option
    record to a row (a [CustomInput] element, or a native
    [div > input + label] row), [render] maps it over [options] and wraps
    the rows in the root [div].  The only effect is the [onChange] handler
    of a row, which calls the host callback [setProps] with a replacement
    selection.

    Layout of the development:
    - [JS]       : the fragment of JavaScript values the file computes with
                   (truthiness, [&&], [||], [Boolean], template strings);
    - [ClassNames], [Ramda] : the third-party functions the file imports,
                   following their documented behaviour;
    - [Option], [Props], [CustomInput], [FormCheck], [Root] : the data;
    - [Checklist]: [listItem], [render], [defaultProps];
    - [Host]     : the Dash side of [setProps];
    - [Store]    : the same handler over a store of arrays with identity,
                   for the statements about in-place mutation. *)

From stdpp Require Import base decidable option list strings pretty gmap.

Local Open Scope string_scope.
Local Open Scope list_scope.

(** ** JavaScript values *)

Module JS.

(** The values that flow through the component's dynamically typed
    expressions.  Numbers are integers here: option values are used as keys
    and compared with [===], and the fractional part, NaN and the sign of
    zero play no role in any statement below. *)
Inductive val :=
| undefined
| bool_ (b : bool)
| num (n : Z)
| str (s : string).

#[global] Instance val_eq_dec : EqDecision val.
Proof. solve_decision. Defined.

#[global] Instance val_inhabited : Inhabited val := populate undefined.

(** ToBoolean: [undefined], [false], [0] and the empty string are falsy. *)
Definition truthy (v : val) : bool :=
  match v with
  | undefined => false
  | bool_ b => b
  | num n => negb (Z.eqb n 0)
  | str s => negb (bool_decide (s = ""))
  end.

(** [Boolean(v)] *)
Definition Boolean (v : val) : bool := truthy v.

(** [a && b] and [a || b] return one of their operands. *)
Definition and_ (a b : val) : val := if truthy a then b else a.
Definition or_ (a b : val) : val := if truthy a then a else b.

(** String conversion inside a template literal. *)
Definition to_string (v : val) : string :=
  match v with
  | undefined => "undefined"
  | bool_ true => "true"
  | bool_ false => "false"
  | num n => pretty n
  | str s => s
  end.

(** An optional string prop: absent is [undefined]. *)
Definition of_string (o : option string) : val :=
  match o with Some s => str s | None => undefined end.

(** An optional boolean prop. *)
Definition of_bool (o : option bool) : val :=
  match o with Some b => bool_ b | None => undefined end.

End JS.

(** ** classnames *)

Module ClassNames.

(** [classNames(...args)] for the arguments the component passes (strings,
    booleans, [undefined]): falsy arguments are skipped, strings and numbers
    are kept, the kept ones are joined with single spaces.  [true] is truthy
    but contributes nothing. *)
Definition token (a : JS.val) : option string :=
  if JS.truthy a then
    match a with
    | JS.str s => Some s
    | JS.num n => Some (pretty n)
    | _ => None
    end
  else None.

Definition tokens (args : list JS.val) : list string := omap token args.

Fixpoint join (sep : string) (l : list string) : string :=
  match l with
  | [] => ""
  | [s] => s
  | s :: l' => s +:+ sep +:+ join sep l'
  end.

Definition classNames (args : list JS.val) : string := join " " (tokens args).

End ClassNames.

(** ** ramda *)

Module Ramda.

(** [contains(a, list)]: is [a] an element of [list].  On strings, numbers,
    booleans and [undefined] ramda compares with [===]. *)
Definition contains (a : JS.val) (l : list JS.val) : bool :=
  bool_decide (a ∈ l).

(** [without(xs, list)]: [list] without the elements that are in [xs]
    ([reject] of the membership test). *)
Definition without (xs l : list JS.val) : list JS.val :=
  filter (λ x, contains x xs = false) l.

(** [append(el, list)]: a new list with [el] at the end. *)
Definition append (el : JS.val) (l : list JS.val) : list JS.val :=
  l ++ [el].

End Ramda.

(** ** The host callback *)

Module Dash.

(** The object passed to [setProps]: the component only ever sends
    [{value: newValue}]. *)
Record update := { value : list JS.val }.

(** Calls made to the host, in order.  [setProps] is the callback Dash
    assigns to every component it renders. *)
Inductive call :=
| setProps (u : update).

End Dash.

(** ** Data model *)

(** Style objects: CSS property name to value. *)
Abbreviation style_obj := (gmap string JS.val).

(** One entry of [options]: [{label, value, disabled}]. *)
Module Option.
Record t := {
  label : JS.val;
  value : JS.val;
  disabled : JS.val
}.
End Option.

Module LoadingState.
Record t := {
  is_loading : JS.val;
  prop_name : option string;
  component_name : option string
}.
End LoadingState.

(** [this.props].  A prop without a default is an [option]: [None] is
    [undefined].  Props with an entry in [defaultProps] are always
    defined. *)
Module Props.
Record t := {
  id : option string;
  options : list Option.t;
  value : list JS.val;
  className : option string;
  style : option style_obj;
  key : option string;
  inputStyle : style_obj;
  inputClassName : string;
  labelStyle : style_obj;
  labelCheckedStyle : option style_obj;
  labelClassName : string;
  labelCheckedClassName : option string;
  inline : option bool;
  switch : option bool;
  custom : bool;
  loading_state : option LoadingState.t
}.
End Props.

(** The props handed to the [CustomInput] sub-component. *)
Module CustomInput.
Record t := {
  id : string;
  checked : bool;
  className : string;
  disabled : bool;
  type : string;
  label : JS.val;
  labelStyle : style_obj;
  labelClassName : string;
  inline : option bool;
  onChange : list Dash.call;
  key : JS.val
}.
End CustomInput.

(** The native row: [<div><input/><label/></div>]. *)
Module Input.
Record t := {
  id : string;
  checked : bool;
  className : string;
  disabled : bool;
  style : style_obj;
  type : string;
  onChange : list Dash.call
}.
End Input.

Module Label.
Record t := {
  style : style_obj;
  className : string;
  key : JS.val;
  htmlFor : string;
  children : JS.val
}.
End Label.

Module FormCheck.
Record t := {
  className : string;
  key : JS.val;
  input : Input.t;
  label : Label.t
}.
End FormCheck.

(** What [listItem] returns. *)
Inductive item :=
| Custom (c : CustomInput.t)
| Native (d : FormCheck.t).

(** The root [<div>]. *)
Module Root.
Record t := {
  id : option string;
  style : option style_obj;
  className : option string;
  key : option string;
  data_dash_is_loading : JS.val;
  children : list item
}.
End Root.

(** ** The component *)

Module Checklist.

(** Object spread [{...a, ...b}]: the keys of both, [b] winning; spreading
    [undefined] adds nothing. *)
Definition spread (a : style_obj) (b : option style_obj) : style_obj :=
  default ∅ b ∪ a.

(** The body of the [onChange] arrow function; the custom and the native
    branch of [listItem] carry the same closure over [option.value] and
    [value]. *)
Definition onChange (option_value : JS.val) (value : list JS.val)
  : list Dash.call :=
  let newValue :=
    if Ramda.contains option_value value
    then Ramda.without [option_value] value
    else Ramda.append option_value value in
  [Dash.setProps {| Dash.value := newValue |}].

Definition listItem (props : Props.t) (opt : Option.t) : item :=
  let id := Props.id props in
  let value := Props.value props in
  let labelClassName := Props.labelClassName props in
  let labelCheckedClassName := Props.labelCheckedClassName props in
  let labelStyle := Props.labelStyle props in
  let checked := Ramda.contains (Option.value opt) value in
  let mergedLabelStyle :=
    if checked then spread labelStyle (Props.labelCheckedStyle props)
    else labelStyle in
  if JS.truthy (JS.and_ (JS.of_string id) (JS.bool_ (Props.custom props)))
  then
    Custom {|
      CustomInput.id :=
        "_" +:+ JS.to_string (JS.of_string id) +:+ "-"
            +:+ JS.to_string (Option.value opt);
      CustomInput.checked := checked;
      CustomInput.className := Props.inputClassName props;
      CustomInput.disabled := JS.Boolean (Option.disabled opt);
      CustomInput.type :=
        if JS.truthy (JS.of_bool (Props.switch props))
        then "switch" else "checkbox";
      CustomInput.label := Option.label opt;
      CustomInput.labelStyle := mergedLabelStyle;
      CustomInput.labelClassName :=
        ClassNames.classNames
          [JS.str labelClassName;
           JS.and_ (JS.bool_ checked) (JS.of_string labelCheckedClassName)];
      CustomInput.inline := Props.inline props;
      CustomInput.onChange := onChange (Option.value opt) value;
      CustomInput.key := Option.value opt
    |}
  else
    let inputId :=
      "_" +:+ JS.to_string
                (JS.or_ (JS.of_string id) (JS.str "_dbcprivate_checklist"))
          +:+ "-" +:+ JS.to_string (Option.value opt) in
    Native {|
      FormCheck.className :=
        ClassNames.classNames
          [JS.str "form-check";
           JS.and_ (JS.of_bool (Props.inline props))
                   (JS.str "form-check-inline")];
      FormCheck.key := Option.value opt;
      FormCheck.input := {|
        Input.id := inputId;
        Input.checked := checked;
        Input.className :=
          ClassNames.classNames
            [JS.str "form-check-input"; JS.str (Props.inputClassName props)];
        Input.disabled := JS.Boolean (Option.disabled opt);
        Input.style := Props.inputStyle props;
        Input.type := "checkbox";
        Input.onChange := onChange (Option.value opt) value
      |};
      FormCheck.label := {|
        Label.style := mergedLabelStyle;
        Label.className :=
          ClassNames.classNames
            [JS.str "form-check-label";
             JS.str labelClassName;
             JS.and_ (JS.bool_ checked)
                     (JS.of_string labelCheckedClassName)];
        Label.key := Option.value opt;
        Label.htmlFor := inputId;
        Label.children := Option.label opt
      |}
    |}.

(** In [(loading_state && loading_state.is_loading) || undefined] a supplied
    [loading_state] is an object, hence truthy, and [&&] yields its
    [is_loading]; an absent one is [undefined], which [&&] yields as is. *)
Definition render (props : Props.t) : Root.t :=
  let items := (λ opt, listItem props opt) <$> Props.options props in
  {|
    Root.id := Props.id props;
    Root.style := Props.style props;
    Root.className := Props.className props;
    Root.key := Props.key props;
    Root.data_dash_is_loading :=
      JS.or_
        (match Props.loading_state props with
         | Some loading_state => LoadingState.is_loading loading_state
         | None => JS.undefined
         end)
        JS.undefined;
    Root.children := items
  |}.

(** [Checklist.defaultProps] applied to an otherwise empty props object. *)
Definition defaultProps : Props.t := {|
  Props.id := None;
  Props.options := [];
  Props.value := [];
  Props.className := None;
  Props.style := None;
  Props.key := None;
  Props.inputStyle := ∅;
  Props.inputClassName := "";
  Props.labelStyle := ∅;
  Props.labelCheckedStyle := None;
  Props.labelClassName := "";
  Props.labelCheckedClassName := None;
  Props.inline := None;
  Props.switch := None;
  Props.custom := true;
  Props.loading_state := None
|}.

End Checklist.

(** ** Observations on a rendered row

    What both kinds of row have in common. *)

Definition is_custom (it : item) : bool :=
  match it with Custom _ => true | Native _ => false end.

Definition item_checked (it : item) : bool :=
  match it with
  | Custom c => CustomInput.checked c
  | Native d => Input.checked (FormCheck.input d)
  end.

Definition item_disabled (it : item) : bool :=
  match it with
  | Custom c => CustomInput.disabled c
  | Native d => Input.disabled (FormCheck.input d)
  end.

Definition item_onChange (it : item) : list Dash.call :=
  match it with
  | Custom c => CustomInput.onChange c
  | Native d => Input.onChange (FormCheck.input d)
  end.

Definition item_key (it : item) : JS.val :=
  match it with
  | Custom c => CustomInput.key c
  | Native d => FormCheck.key d
  end.

Definition item_label (it : item) : JS.val :=
  match it with
  | Custom c => CustomInput.label c
  | Native d => Label.children (FormCheck.label d)
  end.

Definition item_labelStyle (it : item) : style_obj :=
  match it with
  | Custom c => CustomInput.labelStyle c
  | Native d => Label.style (FormCheck.label d)
  end.

Definition item_labelClassName (it : item) : string :=
  match it with
  | Custom c => CustomInput.labelClassName c
  | Native d => Label.className (FormCheck.label d)
  end.

Definition item_id (it : item) : string :=
  match it with
  | Custom c => CustomInput.id c
  | Native d => Input.id (FormCheck.input d)
  end.

(** ** The host

    Dash merges the object given to [setProps] into the component's props
    and renders again; the component itself keeps no state. *)

Module Host.

Definition set_value (props : Props.t) (value : list JS.val) : Props.t := {|
  Props.id := Props.id props;
  Props.options := Props.options props;
  Props.value := value;
  Props.className := Props.className props;
  Props.style := Props.style props;
  Props.key := Props.key props;
  Props.inputStyle := Props.inputStyle props;
  Props.inputClassName := Props.inputClassName props;
  Props.labelStyle := Props.labelStyle props;
  Props.labelCheckedStyle := Props.labelCheckedStyle props;
  Props.labelClassName := Props.labelClassName props;
  Props.labelCheckedClassName := Props.labelCheckedClassName props;
  Props.inline := Props.inline props;
  Props.switch := Props.switch props;
  Props.custom := Props.custom props;
  Props.loading_state := Props.loading_state props
|}.

Definition apply (props : Props.t) (c : Dash.call) : Props.t :=
  match c with
  | Dash.setProps u => set_value props (Dash.value u)
  end.

Definition run (calls : list Dash.call) (props : Props.t) : Props.t :=
  foldl apply props calls.

(** The user activates the control rendered for [opt]: its [onChange]
    handler runs and the host applies the calls it made. *)
Definition toggle (props : Props.t) (opt : Option.t) : Props.t :=
  run (item_onChange (Checklist.listItem props opt)) props.

End Host.

(** ** Props that differ in one entry

    The same props object with another [switch], or another [inputStyle]. *)

Module With.

Definition switch (switch : option bool) (props : Props.t) : Props.t := {|
  Props.id := Props.id props;
  Props.options := Props.options props;
  Props.value := Props.value props;
  Props.className := Props.className props;
  Props.style := Props.style props;
  Props.key := Props.key props;
  Props.inputStyle := Props.inputStyle props;
  Props.inputClassName := Props.inputClassName props;
  Props.labelStyle := Props.labelStyle props;
  Props.labelCheckedStyle := Props.labelCheckedStyle props;
  Props.labelClassName := Props.labelClassName props;
  Props.labelCheckedClassName := Props.labelCheckedClassName props;
  Props.inline := Props.inline props;
  Props.switch := switch;
  Props.custom := Props.custom props;
  Props.loading_state := Props.loading_state props
|}.

Definition inputStyle (inputStyle : style_obj) (props : Props.t) : Props.t := {|
  Props.id := Props.id props;
  Props.options := Props.options props;
  Props.value := Props.value props;
  Props.className := Props.className props;
  Props.style := Props.style props;
  Props.key := Props.key props;
  Props.inputStyle := inputStyle;
  Props.inputClassName := Props.inputClassName props;
  Props.labelStyle := Props.labelStyle props;
  Props.labelCheckedStyle := Props.labelCheckedStyle props;
  Props.labelClassName := Props.labelClassName props;
  Props.labelCheckedClassName := Props.labelCheckedClassName props;
  Props.inline := Props.inline props;
  Props.switch := Props.switch props;
  Props.custom := Props.custom props;
  Props.loading_state := Props.loading_state props
|}.

End With.

(** ** Arrays with identity

    The selection the host passes in is a JavaScript array, shared with the
    host.  Here arrays live in a store and are named by their address;
    ramda's [without] and [append] build their result in a fresh array,
    and an array literal allocates one as well.  Nothing in the handler
    writes to an array that already exists. *)

Module Store.

Abbreviation loc := positive.

Record world := {
  heap : gmap loc (list JS.val);
  calls : list loc   (* the [value] of every [setProps({value})] so far *)
}.

(** A computation over the store; [None] is a dereference of an address
    that holds no array. *)
Definition M (A : Type) : Type := world → option (A * world).

Definition ret {A} (a : A) : M A := λ w, Some (a, w).

Definition bind {A B} (m : M A) (k : A → M B) : M B :=
  λ w, match m w with
       | Some (a, w') => k a w'
       | None => None
       end.

Notation "x <- m ;; k" := (bind m (λ x, k))
  (at level 100, m at next level, right associativity).

Definition read (l : loc) : M (list JS.val) :=
  λ w, match heap w !! l with
       | Some xs => Some (xs, w)
       | None => None
       end.

Definition alloc (xs : list JS.val) : M loc :=
  λ w, let l := fresh (dom (heap w)) in
       Some (l, {| heap := <[l := xs]> (heap w); calls := calls w |}).

Definition contains (a : JS.val) (list : loc) : M bool :=
  xs <- read list ;;
  ret (Ramda.contains a xs).

Definition without (xs list : loc) : M loc :=
  ys <- read xs ;;
  l <- read list ;;
  alloc (Ramda.without ys l).

Definition append (el : JS.val) (list : loc) : M loc :=
  l <- read list ;;
  alloc (Ramda.append el l).

Definition setProps (value : loc) : M unit :=
  λ w, Some (tt, {| heap := heap w; calls := calls w ++ [value] |}).

(** The [onChange] closure, [value] being the array the props hold. *)
Definition onChange (option_value : JS.val) (value : loc) : M unit :=
  b <- contains option_value value ;;
  newValue <- (if b : bool then
                 lit <- alloc [option_value] ;;
                 without lit value
               else append option_value value) ;;
  setProps newValue.

End Store.

(** ** Concrete inputs used in the statements below *)

Module Examples.

Definition optA : Option.t :=
  {| Option.label := JS.str "A"; Option.value := JS.num 1;
     Option.disabled := JS.undefined |}.

Definition optB : Option.t :=
  {| Option.label := JS.str "B"; Option.value := JS.num 2;
     Option.disabled := JS.undefined |}.

(** [options=[A,B]], [value=[1]], everything else as in [defaultProps]
    except the two props that select the rendering mode. *)
Definition props_AB (id : option string) (custom : bool) : Props.t := {|
  Props.id := id;
  Props.options := [optA; optB];
  Props.value := [JS.num 1];
  Props.className := None;
  Props.style := None;
  Props.key := None;
  Props.inputStyle := ∅;
  Props.inputClassName := "";
  Props.labelStyle := ∅;
  Props.labelCheckedStyle := None;
  Props.labelClassName := "";
  Props.labelCheckedClassName := None;
  Props.inline := None;
  Props.switch := None;
  Props.custom := custom;
  Props.loading_state := None
|}.

(** No [id], [labelClassName="a"], nothing selected: the native row. *)
Definition props_native_a : Props.t := {|
  Props.id := None;
  Props.options := [optA; optB];
  Props.value := [];
  Props.className := None;
  Props.style := None;
  Props.key := None;
  Props.inputStyle := ∅;
  Props.inputClassName := "";
  Props.labelStyle := ∅;
  Props.labelCheckedStyle := None;
  Props.labelClassName := "a";
  Props.labelCheckedClassName := None;
  Props.inline := None;
  Props.switch := None;
  Props.custom := true;
  Props.loading_state := None
|}.

(** A selection in which the value [1] occurs twice. *)
Definition props_dup : Props.t :=
  Host.set_value (props_AB (Some "checklist") true)
                 [JS.num 1; JS.num 1; JS.num 2].

(** A store holding the host's selection [[1]] at address 1. *)
Definition world_1 : Store.world :=
  {| Store.heap := {[ 1%positive := [JS.num 1] ]}; Store.calls := [] |}.

End Examples.

(** * Properties *)

(** ** ramda and classnames *)

Section Ramda_facts.

Implicit Types (v x : JS.val) (l sel : list JS.val).

Lemma contains_true v l : Ramda.contains v l = true ↔ v ∈ l.
Proof. unfold Ramda.contains. apply bool_decide_eq_true. Qed.

Lemma contains_false v l : Ramda.contains v l = false ↔ v ∉ l.
Proof. unfold Ramda.contains. apply bool_decide_eq_false. Qed.

Lemma contains_singleton x v : Ramda.contains x [v] = false ↔ x ≠ v.
Proof. by rewrite contains_false, list_elem_of_singleton. Qed.

(** [without([v], l)] keeps exactly the elements different from [v]. *)
Lemma without_singleton v l :
  Ramda.without [v] l = filter (λ x, x ≠ v) l.
Proof.
  unfold Ramda.without.
  induction l as [|y l IH]; [done|].
  rewrite !filter_cons, IH.
  destruct (decide (y ≠ v)) as [Hy|Hy].
  - rewrite decide_True; [done|]. by apply contains_singleton.
  - rewrite decide_False; [done|]. by rewrite contains_singleton.
Qed.

Lemma filter_ne_id v l : v ∉ l → filter (λ x, x ≠ v) l = l.
Proof.
  induction l as [|y l IH]; intros Hv; [done|].
  rewrite not_elem_of_cons in Hv. destruct Hv as [Hy Hl].
  rewrite filter_cons_True by congruence. by rewrite IH.
Qed.

Lemma filter_eq_absent v l : v ∉ l → filter (λ x, x = v) l = [].
Proof.
  induction l as [|y l IH]; intros Hv; [done|].
  rewrite not_elem_of_cons in Hv. destruct Hv as [Hy Hl].
  rewrite filter_cons_False by congruence. by apply IH.
Qed.

Lemma filter_ne_snoc v l :
  filter (λ x, x ≠ v) (l ++ [v]) = filter (λ x, x ≠ v) l.
Proof.
  rewrite filter_app, filter_cons_False by (intros H; by apply H).
  by rewrite filter_nil, app_nil_r.
Qed.

Lemma filter_ne_not_elem v l : v ∉ filter (λ x, x ≠ v) l.
Proof. rewrite list_elem_of_filter. tauto. Qed.

(** A single occurrence: filtering it out is deleting it where it is. *)
Lemma filter_ne_single v l1 l2 :
  v ∉ l1 → v ∉ l2 → filter (λ x, x ≠ v) (l1 ++ v :: l2) = l1 ++ l2.
Proof.
  intros H1 H2.
  rewrite filter_app, filter_cons_False by (intros H; by apply H).
  by rewrite !filter_ne_id.
Qed.

End Ramda_facts.

Section ClassNames_facts.

Lemma classNames_skip_false (pre : list JS.val) :
  ClassNames.classNames (pre ++ [JS.bool_ false]) = ClassNames.classNames pre.
Proof.
  unfold ClassNames.classNames, ClassNames.tokens.
  by rewrite omap_app, app_nil_r.
Qed.

End ClassNames_facts.

(** ** The rows *)

Section ListItem_facts.

Implicit Types (props : Props.t) (opt : Option.t).
Implicit Types (v : JS.val) (sel : list JS.val).

(** Case analysis on the rendering mode. *)
Ltac by_mode :=
  unfold Checklist.listItem;
  match goal with
  | |- context [if ?c then Custom _ else Native _] => destruct c
  end; simpl.

Lemma listItem_checked props opt :
  item_checked (Checklist.listItem props opt)
  = Ramda.contains (Option.value opt) (Props.value props).
Proof. by by_mode. Qed.

Lemma listItem_is_custom props opt :
  is_custom (Checklist.listItem props opt)
  = JS.truthy (JS.and_ (JS.of_string (Props.id props))
                       (JS.bool_ (Props.custom props))).
Proof. by by_mode. Qed.

Lemma listItem_key props opt :
  item_key (Checklist.listItem props opt) = Option.value opt.
Proof. by by_mode. Qed.

Lemma listItem_label props opt :
  item_label (Checklist.listItem props opt) = Option.label opt.
Proof. by by_mode. Qed.

Lemma listItem_disabled props opt :
  item_disabled (Checklist.listItem props opt)
  = JS.Boolean (Option.disabled opt).
Proof. by by_mode. Qed.

Lemma listItem_labelStyle props opt :
  item_labelStyle (Checklist.listItem props opt)
  = if Ramda.contains (Option.value opt) (Props.value props)
    then Checklist.spread (Props.labelStyle props)
                          (Props.labelCheckedStyle props)
    else Props.labelStyle props.
Proof. by by_mode. Qed.

Lemma listItem_labelClassName props opt :
  item_labelClassName (Checklist.listItem props opt)
  = ClassNames.classNames
      ((if is_custom (Checklist.listItem props opt)
        then [] else [JS.str "form-check-label"])
       ++ [JS.str (Props.labelClassName props);
           JS.and_ (JS.bool_ (Ramda.contains (Option.value opt)
                                             (Props.value props)))
                   (JS.of_string (Props.labelCheckedClassName props))]).
Proof. by by_mode. Qed.

Lemma listItem_onChange props opt :
  item_onChange (Checklist.listItem props opt)
  = Checklist.onChange (Option.value opt) (Props.value props).
Proof. by by_mode. Qed.

Lemma onChange_call v sel :
  Checklist.onChange v sel
  = [Dash.setProps
       {| Dash.value :=
            if decide (v ∈ sel) then filter (λ x, x ≠ v) sel
            else sel ++ [v] |}].
Proof.
  unfold Checklist.onChange, Ramda.contains, Ramda.append.
  destruct (decide (v ∈ sel)) as [Hin|Hout].
  - by rewrite bool_decide_eq_true_2, without_singleton.
  - by rewrite bool_decide_eq_false_2.
Qed.

Lemma toggle_value props opt :
  Props.value (Host.toggle props opt)
  = if decide (Option.value opt ∈ Props.value props)
    then filter (λ x, x ≠ Option.value opt) (Props.value props)
    else Props.value props ++ [Option.value opt].
Proof.
  unfold Host.toggle. by rewrite listItem_onChange, onChange_call.
Qed.

Lemma toggle_set_value props opt :
  Host.toggle props opt
  = Host.set_value props (Props.value (Host.toggle props opt)).
Proof.
  unfold Host.toggle. by rewrite listItem_onChange, onChange_call.
Qed.

Lemma set_value_value props : Host.set_value props (Props.value props) = props.
Proof. by destruct props. Qed.

Lemma set_value_twice props sel sel' :
  Host.set_value (Host.set_value props sel) sel' = Host.set_value props sel'.
Proof. done. Qed.

End ListItem_facts.

(** ** Toggle semantics *)

(** C1.  Activating an option's control makes exactly one call,
    [setProps({value: newValue})], where [newValue] is the whole new
    selection: the current one without the option's value when it is
    selected, the current one with the value appended at the end otherwise.
    With options A (value 1) and B (value 2) and selection [[1]], in either
    rendering mode, toggling B gives [[1,2]] and toggling A after that
    gives [[2]]. *)
Theorem toggle_reports_full_replacement :
  (∀ (props : Props.t) (opt : Option.t),
     let v := Option.value opt in
     let sel := Props.value props in
     item_onChange (Checklist.listItem props opt)
     = [Dash.setProps
          {| Dash.value :=
               if decide (v ∈ sel) then filter (λ x, x ≠ v) sel
               else sel ++ [v] |}])
  ∧ (∀ (id : option string) (custom : bool),
       let p0 := Examples.props_AB id custom in
       let p1 := Host.toggle p0 Examples.optB in
       let p2 := Host.toggle p1 Examples.optA in
       Props.value p1 = [JS.num 1; JS.num 2] ∧ Props.value p2 = [JS.num 2]).
Proof.
  split.
  - intros props opt v sel. subst v sel.
    by rewrite listItem_onChange, onChange_call.
  - intros id custom p0 p1 p2. subst p0 p1 p2.
    rewrite !toggle_value. split; reflexivity.
Qed.

(** ** Checked state *)

(** C2.  In both rendering modes the input of a row is checked exactly
    when the option's value is a member of the selection. *)
Theorem checked_iff_member (props : Props.t) (opt : Option.t) :
  match Checklist.listItem props opt with
  | Custom c =>
      CustomInput.checked c = true ↔ Option.value opt ∈ Props.value props
  | Native d =>
      Input.checked (FormCheck.input d) = true
      ↔ Option.value opt ∈ Props.value props
  end.
Proof.
  pose proof (listItem_checked props opt) as H.
  destruct (Checklist.listItem props opt); simpl in H;
    rewrite H; apply contains_true.
Qed.

(** ** Rendering mode *)

(** C3.  [listItem] takes the custom path exactly when an [id] is supplied,
    is not the empty string, and [custom] is set; without an [id] the
    native row is rendered whatever [custom] is. *)
Theorem custom_mode_iff_id_and_custom (props : Props.t) (opt : Option.t) :
  (is_custom (Checklist.listItem props opt) = true
   ↔ (∃ s, Props.id props = Some s ∧ s ≠ "") ∧ Props.custom props = true)
  ∧ is_custom (Checklist.listItem props opt)
    = match Props.id props with
      | Some s => if decide (s = "") then false else Props.custom props
      | None => false
      end.
Proof.
  assert (is_custom (Checklist.listItem props opt)
          = match Props.id props with
            | Some s => if decide (s = "") then false else Props.custom props
            | None => false
            end) as Heq.
  { rewrite listItem_is_custom. unfold JS.and_.
    destruct (Props.id props) as [s|]; simpl; [|done].
    destruct (decide (s = "")) as [->|Hs]; [done|].
    by rewrite bool_decide_eq_false_2. }
  split; [|exact Heq].
  rewrite Heq. destruct (Props.id props) as [s|].
  - destruct (decide (s = "")) as [->|Hs].
    + split; [done|]. intros [(s' & [= <-] & Hne) _]. done.
    + split; [eauto|]. by intros [_ ?].
  - split; [done|]. by intros [(s' & ? & _) _].
Qed.

(** C4, as the code has it.  Toggling a checked option removes every
    occurrence of its value, and with it nothing else: the elements
    different from the value are the same sequence before and after.  When
    the value occurs once, that is the deletion of this one element.
    Toggling an unchecked option appends the value once at the end. *)
Theorem toggle_removes_all_keeps_order (props : Props.t) (opt : Option.t) :
  let v := Option.value opt in
  let sel := Props.value props in
  let sel' := Props.value (Host.toggle props opt) in
  filter (λ x, x ≠ v) sel' = filter (λ x, x ≠ v) sel
  ∧ (v ∈ sel → (v ∉ sel') ∧ (sel' `sublist_of` sel)
               ∧ sel' = filter (λ x, x ≠ v) sel)
  ∧ (∀ l1 l2, sel = l1 ++ v :: l2 → v ∉ l1 → v ∉ l2 → sel' = l1 ++ l2)
  ∧ (v ∉ sel → sel' = sel ++ [v] ∧ length (filter (λ x, x = v) sel') = 1).
Proof.
  intros v sel sel'. subst sel'. rewrite toggle_value. fold v sel.
  repeat split.
  - destruct (decide (v ∈ sel)).
    + by apply list_filter_filter_l.
    + apply filter_ne_snoc.
  - rewrite decide_True by done. apply filter_ne_not_elem.
  - rewrite decide_True by done. apply sublist_filter.
  - by rewrite decide_True.
  - intros l1 l2 Hsel H1 H2.
    rewrite decide_True by (rewrite Hsel; set_solver).
    rewrite Hsel. by apply filter_ne_single.
  - by rewrite decide_False.
  - rewrite decide_False by done.
    rewrite filter_app, filter_cons_True, filter_nil by done.
    by rewrite filter_eq_absent.
Qed.

(** With selection [[1,2,3]] toggling the checked value 2 leaves [[1,3]];
    with selection [[1]] toggling the unchecked value 2 gives [[1,2]]. *)
Lemma toggle_removes_all_keeps_order_witness :
  Props.value
    (Host.toggle
       (Host.set_value (Examples.props_AB None true)
                       [JS.num 1; JS.num 2; JS.num 3])
       Examples.optB)
  = [JS.num 1; JS.num 3]
  ∧ Props.value (Host.toggle (Examples.props_AB None true) Examples.optB)
    = [JS.num 1; JS.num 2].
Proof.
  split.
  - destruct (toggle_removes_all_keeps_order
                (Host.set_value (Examples.props_AB None true)
                                [JS.num 1; JS.num 2; JS.num 3])
                Examples.optB) as (_ & _ & Hsingle & _).
    apply (Hsingle [JS.num 1] [JS.num 3]); [reflexivity| |];
      apply contains_false; reflexivity.
  - destruct (toggle_removes_all_keeps_order
                (Examples.props_AB None true) Examples.optB)
      as (_ & _ & _ & Happend).
    apply Happend. apply contains_false. reflexivity.
Defined.

(** C4 as the specification words it: the removal deletes one matching
    occurrence.  With the value 1 selected twice, [[1,1,2]], toggling it
    leaves [[2]], which is not [[1,1,2]] with one element deleted. *)
Lemma toggle_duplicate_removes_both :
  Props.value (Host.toggle Examples.props_dup Examples.optA) = [JS.num 2]
  ∧ ¬ (∃ i : nat,
         Props.value Examples.props_dup !! i = Some (Option.value Examples.optA)
         ∧ Props.value (Host.toggle Examples.props_dup Examples.optA)
           = delete i (Props.value Examples.props_dup)).
Proof.
  split; [reflexivity|].
  intros (i & _ & Heq). apply (f_equal length) in Heq.
  destruct i as [|[|[|i]]]; vm_compute in Heq; discriminate.
Qed.

(** ** Rows *)

(** C5.  [render] produces one row per option, in the order of [options]:
    the i-th child is the row of the i-th option, and carries its value as
    key and its label. *)
Theorem render_one_row_per_option (props : Props.t) :
  let rows := Root.children (Checklist.render props) in
  length rows = length (Props.options props)
  ∧ ∀ i : nat,
      rows !! i = Checklist.listItem props <$> (Props.options props !! i)
      ∧ item_key <$> (rows !! i) = Option.value <$> (Props.options props !! i)
      ∧ item_label <$> (rows !! i)
        = Option.label <$> (Props.options props !! i).
Proof.
  intros rows. subst rows. unfold Checklist.render. simpl.
  split; [apply length_fmap|].
  intros i. rewrite list_lookup_fmap.
  destruct (Props.options props !! i) as [opt|]; simpl; [|done].
  by rewrite listItem_key, listItem_label.
Qed.

(** C6.  In both rendering modes the input is disabled exactly when the
    option's [disabled] is truthy, whatever the selection is. *)
Theorem disabled_iff_option_disabled (props : Props.t) (opt : Option.t) :
  match Checklist.listItem props opt with
  | Custom c => CustomInput.disabled c = JS.truthy (Option.disabled opt)
  | Native d =>
      Input.disabled (FormCheck.input d) = JS.truthy (Option.disabled opt)
  end.
Proof.
  pose proof (listItem_disabled props opt) as H.
  by destruct (Checklist.listItem props opt).
Qed.

(** ** Label styling *)

(** C7 as the specification words it: the label's classes are the base
    class plus, when checked, the checked class.  The native row of an
    unchecked option with [labelClassName="a"] gets
    ["form-check-label a"], not ["a"]. *)
Lemma native_label_class_has_fixed_class :
  is_custom (Checklist.listItem Examples.props_native_a Examples.optA) = false
  ∧ item_checked (Checklist.listItem Examples.props_native_a Examples.optA)
    = false
  ∧ item_labelClassName
      (Checklist.listItem Examples.props_native_a Examples.optA)
    = "form-check-label a"
  ∧ item_labelClassName
      (Checklist.listItem Examples.props_native_a Examples.optA)
    ≠ ClassNames.classNames
        [JS.str (Props.labelClassName Examples.props_native_a)].
Proof. repeat split; [reflexivity..|]. vm_compute. discriminate. Qed.

(** C7, as the code has it.  The label's style is, key by key, the checked
    style where the option is checked and the checked style has the key,
    and the base style otherwise.  The label's class string is made of the
    base class and, when checked, the checked class; in the native row the
    fixed class [form-check-label] comes first. *)
Theorem label_style_and_class (props : Props.t) (opt : Option.t) :
  let row := Checklist.listItem props opt in
  (∀ k : string,
     item_labelStyle row !! k
     = if item_checked row then
         match default ∅ (Props.labelCheckedStyle props) !! k with
         | Some x => Some x
         | None => Props.labelStyle props !! k
         end
       else Props.labelStyle props !! k)
  ∧ item_labelClassName row
    = ClassNames.classNames
        ((if is_custom row then [] else [JS.str "form-check-label"])
         ++ JS.str (Props.labelClassName props)
            :: (if item_checked row
                then [JS.of_string (Props.labelCheckedClassName props)]
                else [])).
Proof.
  intros row. subst row.
  rewrite listItem_labelStyle, listItem_labelClassName, listItem_checked.
  destruct (Ramda.contains (Option.value opt) (Props.value props)).
  - split; [|done].
    intros k. unfold Checklist.spread. rewrite lookup_union.
    destruct (default ∅ (Props.labelCheckedStyle props) !! k);
      by destruct (Props.labelStyle props !! k).
  - split; [done|].
    change (JS.and_ (JS.bool_ false) ?x) with (JS.bool_ false).
    destruct (is_custom (Checklist.listItem props opt)).
    + apply (classNames_skip_false [_]).
    + apply (classNames_skip_false [_; _]).
Qed.

(** ** Loading marker *)

(** C8.  [data-dash-is-loading] on the root is truthy exactly when
    [loading_state] is supplied and its [is_loading] is truthy, and it is
    then that [is_loading]; in every other case it is [undefined]. *)
Theorem loading_attr_iff_is_loading (props : Props.t) :
  let attr := Root.data_dash_is_loading (Checklist.render props) in
  (JS.truthy attr = true
   ↔ ∃ ls, Props.loading_state props = Some ls
           ∧ JS.truthy (LoadingState.is_loading ls) = true)
  ∧ attr = match Props.loading_state props with
           | Some ls =>
               if JS.truthy (LoadingState.is_loading ls)
               then LoadingState.is_loading ls
               else JS.undefined
           | None => JS.undefined
           end.
Proof.
  intros attr. subst attr. unfold Checklist.render. simpl.
  unfold JS.or_.
  destruct (Props.loading_state props) as [ls|]; simpl.
  - destruct (JS.truthy (LoadingState.is_loading ls)) eqn:Hls; simpl.
    + split; [|done]. split; [eauto|done].
    + split; [|done]. split; [done|]. intros (ls' & [= <-] & Ht). congruence.
  - split; [|done]. split; [done|]. by intros (ls' & ? & _).
Qed.

(** ** Round trip *)

(** C10.  Starting from a selection that does not contain an option's
    value, toggling the option twice gives back the original selection
    (and with it the original props). *)
Theorem toggle_twice_unchecked (props : Props.t) (opt : Option.t) :
  Option.value opt ∉ Props.value props →
  Props.value (Host.toggle (Host.toggle props opt) opt) = Props.value props
  ∧ Host.toggle (Host.toggle props opt) opt = props.
Proof.
  intros Hout.
  assert (Props.value (Host.toggle (Host.toggle props opt) opt)
          = Props.value props) as Hval.
  { rewrite (toggle_value (Host.toggle props opt)), (toggle_value props).
    rewrite (decide_False (P := _ ∈ Props.value props)) by done.
    rewrite decide_True by set_solver.
    by rewrite filter_ne_snoc, filter_ne_id. }
  split; [exact Hval|].
  rewrite (toggle_set_value (Host.toggle props opt)), Hval.
  rewrite (toggle_set_value props), set_value_twice.
  apply set_value_value.
Qed.

(** Selection [[1]], option B (value 2): [[1]] to [[1,2]] and back. *)
Lemma toggle_twice_unchecked_witness :
  (Option.value Examples.optB ∉ Props.value (Examples.props_AB None true))
  ∧ Props.value
      (Host.toggle (Host.toggle (Examples.props_AB None true) Examples.optB)
                   Examples.optB)
    = [JS.num 1].
Proof.
  assert (Option.value Examples.optB
          ∉ Props.value (Examples.props_AB None true)) as Hout
    by (apply contains_false; reflexivity).
  split; [exact Hout|].
  exact (proj1 (toggle_twice_unchecked
                  (Examples.props_AB None true) Examples.optB Hout)).
Defined.

(** ** The host's array is left alone *)

Section Store_facts.

Implicit Types (w : Store.world) (l value : Store.loc).
Implicit Types (v : JS.val) (sel xs : list JS.val).

Lemma fresh_not_allocated (h : gmap Store.loc (list JS.val)) :
  h !! fresh (dom h) = None.
Proof. apply not_elem_of_dom. apply is_fresh. Qed.

Lemma read_allocated w l xs :
  Store.heap w !! l = Some xs → Store.read l w = Some (xs, w).
Proof. intros H. unfold Store.read. by rewrite H. Qed.

(** [alloc] extends the heap at an unused address and changes nothing
    else. *)
Lemma alloc_spec w xs :
  ∃ l w', Store.alloc xs w = Some (l, w')
          ∧ Store.heap w !! l = None
          ∧ Store.heap w' = <[l := xs]> (Store.heap w)
          ∧ Store.calls w' = Store.calls w.
Proof.
  eexists _, _. split; [reflexivity|]. simpl.
  split; [apply fresh_not_allocated|done].
Qed.

(** The handler in the store and the handler on values agree on the
    selection that is sent. *)
Lemma store_onChange_run w v value sel :
  Store.heap w !! value = Some sel →
  ∃ newValue w',
    Store.onChange v value w = Some (tt, w')
    ∧ Store.heap w !! newValue = None
    ∧ Store.heap w ⊆ Store.heap w'
    ∧ Store.calls w' = Store.calls w ++ [newValue]
    ∧ ∃ new_sel,
        Store.heap w' !! newValue = Some new_sel
        ∧ Checklist.onChange v sel
          = [Dash.setProps {| Dash.value := new_sel |}].
Proof.
  intros Hsel.
  unfold Store.onChange, Store.bind at 1, Store.contains, Store.bind at 1.
  rewrite (read_allocated _ _ _ Hsel). unfold Store.ret.
  unfold Checklist.onChange.
  destruct (Ramda.contains v sel).
  - unfold Store.bind at 1. unfold Store.bind at 1.
    destruct (alloc_spec w [v]) as (lit & w1 & -> & Hlit & Hw1 & Hc1).
    assert (lit ≠ value) as Hne by congruence.
    unfold Store.without, Store.bind at 1.
    rewrite (read_allocated w1 lit [v])
      by (rewrite Hw1; apply lookup_insert_eq).
    unfold Store.bind at 1.
    rewrite (read_allocated w1 value sel)
      by (rewrite Hw1, lookup_insert_ne; done).
    destruct (alloc_spec w1 (Ramda.without [v] sel))
      as (new & w2 & -> & Hnew & Hw2 & Hc2).
    exists new. eexists. split; [reflexivity|]. simpl.
    rewrite Hw1 in Hnew. apply lookup_insert_None in Hnew as [Hnew1 Hnew2].
    repeat split.
    + done.
    + rewrite Hw2, Hw1.
      etrans; [|apply insert_subseteq; by rewrite lookup_insert_ne].
      by apply insert_subseteq.
    + by rewrite Hc2, Hc1.
    + eexists. split; [by rewrite Hw2, lookup_insert_eq|done].
  - unfold Store.bind at 1. unfold Store.append, Store.bind at 1.
    rewrite (read_allocated _ _ _ Hsel).
    destruct (alloc_spec w (Ramda.append v sel))
      as (new & w1 & -> & Hnew & Hw1 & Hc1).
    exists new. eexists. split; [reflexivity|]. simpl.
    repeat split.
    + done.
    + rewrite Hw1. by apply insert_subseteq.
    + by rewrite Hc1.
    + eexists. split; [by rewrite Hw1, lookup_insert_eq|done].
Qed.

End Store_facts.

(** C9.  Running the handler on the array the host supplied succeeds and
    leaves that array, and every other array that existed, with the
    contents it had; the array passed to [setProps] did not exist before
    and is therefore not the host's, and it holds the new selection. *)
Theorem onChange_never_mutates
    (w : Store.world) (v : JS.val) (value : Store.loc) (sel : list JS.val) :
  Store.heap w !! value = Some sel →
  ∃ (newValue : Store.loc) (w' : Store.world),
    Store.onChange v value w = Some (tt, w')
    ∧ Store.heap w' !! value = Some sel
    ∧ (∀ l xs, Store.heap w !! l = Some xs → Store.heap w' !! l = Some xs)
    ∧ Store.heap w !! newValue = None
    ∧ newValue ≠ value
    ∧ Store.calls w' = Store.calls w ++ [newValue]
    ∧ ∃ new_sel,
        Store.heap w' !! newValue = Some new_sel
        ∧ Checklist.onChange v sel
          = [Dash.setProps {| Dash.value := new_sel |}].
Proof.
  intros Hsel.
  destruct (store_onChange_run w v value sel Hsel)
    as (newValue & w' & Hrun & Hfresh & Hsub & Hcalls & Hnew).
  exists newValue, w'.
  assert (∀ l xs, Store.heap w !! l = Some xs → Store.heap w' !! l = Some xs)
    as Hframe by (intros l xs Hl; by eapply lookup_weaken).
  repeat split; [done|by apply Hframe|done|done|congruence|done|done].
Qed.

(** The host's array [[1]] at address 1, toggling the value 1. *)
Lemma onChange_never_mutates_witness :
  Store.heap Examples.world_1 !! 1%positive = Some [JS.num 1]
  ∧ ∃ (newValue : Store.loc) (w' : Store.world),
      Store.onChange (JS.num 1) 1%positive Examples.world_1 = Some (tt, w')
      ∧ Store.heap w' !! 1%positive = Some [JS.num 1]
      ∧ (∀ l xs, Store.heap Examples.world_1 !! l = Some xs
                 → Store.heap w' !! l = Some xs)
      ∧ Store.heap Examples.world_1 !! newValue = None
      ∧ newValue ≠ 1%positive
      ∧ Store.calls w' = Store.calls Examples.world_1 ++ [newValue]
      ∧ ∃ new_sel,
          Store.heap w' !! newValue = Some new_sel
          ∧ Checklist.onChange (JS.num 1) [JS.num 1]
            = [Dash.setProps {| Dash.value := new_sel |}].
Proof.
  split; [reflexivity|].
  apply (onChange_never_mutates Examples.world_1 (JS.num 1) 1%positive).
  reflexivity.
Defined.

(** * Further properties of the component *)

(** ** Membership after a toggle *)

Section Toggle_facts.

Implicit Types (props : Props.t) (opt : Option.t).
Implicit Types (v x : JS.val) (sel : list JS.val).

Lemma toggle_elem_same props opt :
  Option.value opt ∈ Props.value (Host.toggle props opt)
  ↔ Option.value opt ∉ Props.value props.
Proof.
  rewrite toggle_value.
  destruct (decide (Option.value opt ∈ Props.value props)) as [Hin|Hout].
  - split; [|done]. intros H. by apply filter_ne_not_elem in H.
  - split; [done|]. intros _. set_solver.
Qed.

Lemma toggle_elem_other props opt x :
  x ≠ Option.value opt →
  x ∈ Props.value (Host.toggle props opt) ↔ x ∈ Props.value props.
Proof.
  intros Hx. rewrite toggle_value.
  destruct (decide (Option.value opt ∈ Props.value props)).
  - rewrite list_elem_of_filter. tauto.
  - rewrite elem_of_app, list_elem_of_singleton. tauto.
Qed.

Lemma contains_iff v sel sel' :
  (v ∈ sel ↔ v ∈ sel') → Ramda.contains v sel = Ramda.contains v sel'.
Proof. intros H. unfold Ramda.contains. by apply bool_decide_ext. Qed.

Lemma contains_negb v sel sel' :
  (v ∈ sel ↔ v ∉ sel') →
  Ramda.contains v sel = negb (Ramda.contains v sel').
Proof.
  intros H. unfold Ramda.contains. rewrite <- bool_decide_not.
  by apply bool_decide_ext.
Qed.

End Toggle_facts.

(** X1.  After an option is toggled and the host has applied the new
    selection, the rows whose option value equals the toggled value have
    their checked state inverted, and every other row keeps its checked
    state. *)
Theorem toggle_flips_checked_of_that_value
    (props : Props.t) (opt opt' : Option.t) :
  item_checked (Checklist.listItem (Host.toggle props opt) opt')
  = if decide (Option.value opt' = Option.value opt)
    then negb (item_checked (Checklist.listItem props opt'))
    else item_checked (Checklist.listItem props opt').
Proof.
  rewrite !listItem_checked.
  destruct (decide (Option.value opt' = Option.value opt)) as [->|Hne].
  - apply contains_negb, toggle_elem_same.
  - by apply contains_iff, toggle_elem_other.
Qed.

(** X2.  A selection without duplicates stays without duplicates when an
    option is toggled, and its length changes by exactly one: one less when
    the option was checked, one more when it was not. *)
Theorem toggle_keeps_NoDup (props : Props.t) (opt : Option.t) :
  NoDup (Props.value props) →
  NoDup (Props.value (Host.toggle props opt))
  ∧ length (Props.value (Host.toggle props opt))
    = if decide (Option.value opt ∈ Props.value props)
      then pred (length (Props.value props))
      else S (length (Props.value props)).
Proof.
  intros Hnd. rewrite toggle_value.
  destruct (decide (Option.value opt ∈ Props.value props)) as [Hin|Hout].
  - split; [by apply NoDup_filter|].
    apply list_elem_of_split in Hin as (l1 & l2 & Hsel).
    rewrite Hsel in Hnd |- *.
    apply NoDup_app in Hnd as (_ & H1 & H2).
    apply NoDup_cons in H2 as [H2 _].
    rewrite filter_ne_single; [|intros Hv; apply (H1 _ Hv); set_solver|done].
    rewrite !length_app. simpl. lia.
  - split.
    + apply NoDup_app. repeat split; [done| |apply NoDup_singleton].
      intros x Hx. rewrite list_elem_of_singleton. by intros ->.
    + rewrite length_app. simpl. lia.
Qed.

(** Selection [[1]] has no duplicates; toggling B (value 2) gives a
    selection of length 2 without duplicates. *)
Lemma toggle_keeps_NoDup_witness :
  NoDup (Props.value (Host.toggle (Examples.props_AB None true)
                                  Examples.optB))
  ∧ length (Props.value (Host.toggle (Examples.props_AB None true)
                                     Examples.optB)) = 2.
Proof.
  apply (toggle_keeps_NoDup (Examples.props_AB None true) Examples.optB).
  apply NoDup_singleton.
Defined.

(** X3.  The selection stays within the option values: when every selected
    value is the value of some option and the toggled option is one of the
    options, every value of the new selection is the value of some option. *)
Theorem toggle_keeps_selection_within_options
    (props : Props.t) (opt : Option.t) :
  Props.value props ⊆ Option.value <$> Props.options props →
  opt ∈ Props.options props →
  Props.value (Host.toggle props opt) ⊆ Option.value <$> Props.options props.
Proof.
  intros Hsub Hopt x Hx.
  destruct (decide (x = Option.value opt)) as [->|Hne].
  - by apply list_elem_of_fmap_2.
  - apply Hsub. by apply (toggle_elem_other props opt).
Qed.

(** Options A and B, selection [[1]], toggling B. *)
Lemma toggle_keeps_selection_within_options_witness :
  Props.value (Host.toggle (Examples.props_AB None true) Examples.optB)
  ⊆ Option.value <$> Props.options (Examples.props_AB None true).
Proof.
  apply (toggle_keeps_selection_within_options
           (Examples.props_AB None true) Examples.optB).
  - intros x Hx. apply list_elem_of_singleton in Hx as ->.
    apply list_elem_of_here.
  - apply list_elem_of_further, list_elem_of_here.
Defined.

(** X4.  Toggling a checked option twice does not in general give back the
    selection: the result is the selection without the value, followed by
    the value once.  It holds the same values as the original, and it is
    the original exactly when the value was its last element and occurred
    nowhere else. *)
Theorem toggle_twice_checked (props : Props.t) (opt : Option.t) :
  let v := Option.value opt in
  let sel := Props.value props in
  let sel'' := Props.value (Host.toggle (Host.toggle props opt) opt) in
  v ∈ sel →
  sel'' = filter (λ x, x ≠ v) sel ++ [v]
  ∧ (∀ x, x ∈ sel'' ↔ x ∈ sel)
  ∧ (sel'' = sel ↔ ∃ l, sel = l ++ [v] ∧ v ∉ l).
Proof.
  intros v sel sel'' Hin.
  assert (sel'' = filter (λ x, x ≠ v) sel ++ [v]) as Heq.
  { subst sel''. rewrite (toggle_value (Host.toggle props opt)).
    rewrite decide_False by (by rewrite toggle_elem_same; intros H; apply H).
    rewrite toggle_value. fold v sel. by rewrite decide_True. }
  split; [exact Heq|]. rewrite Heq. split.
  - intros x. rewrite elem_of_app, list_elem_of_filter, list_elem_of_singleton.
    destruct (decide (x = v)) as [->|Hne]; tauto.
  - split.
    + intros Hsel. exists (filter (λ x, x ≠ v) sel).
      split; [done|apply filter_ne_not_elem].
    + intros (l & Hl & Hv). rewrite Hl, filter_ne_snoc.
      by rewrite filter_ne_id.
Qed.

(** Selection [[1,2,3]], toggling the checked value 2 twice: [[1,3,2]]. *)
Lemma toggle_twice_checked_witness :
  Props.value
    (Host.toggle
       (Host.toggle
          (Host.set_value (Examples.props_AB None true)
                          [JS.num 1; JS.num 2; JS.num 3])
          Examples.optB)
       Examples.optB)
  = [JS.num 1; JS.num 3; JS.num 2].
Proof.
  apply (toggle_twice_checked
           (Host.set_value (Examples.props_AB None true)
                           [JS.num 1; JS.num 2; JS.num 3])
           Examples.optB).
  apply contains_true. reflexivity.
Defined.


(** X6.  The set of selected values after toggling two options does not
    depend on the order of the two toggles; when both options were checked
    the two selections are equal as sequences. *)
Theorem toggle_order_irrelevant (props : Props.t) (a b : Option.t) :
  let ab := Props.value (Host.toggle (Host.toggle props a) b) in
  let ba := Props.value (Host.toggle (Host.toggle props b) a) in
  (∀ x, x ∈ ab ↔ x ∈ ba)
  ∧ (Option.value a ∈ Props.value props →
     Option.value b ∈ Props.value props → ab = ba).
Proof.
  intros ab ba. subst ab ba. split.
  - intros x.
    destruct (decide (Option.value a = Option.value b)) as [Hab|Hab].
    + rewrite !toggle_value. by rewrite Hab.
    + destruct (decide (x = Option.value a)) as [->|Hxa].
      * rewrite toggle_elem_other by done.
        by rewrite !toggle_elem_same, toggle_elem_other.
      * destruct (decide (x = Option.value b)) as [->|Hxb].
        -- rewrite toggle_elem_same, toggle_elem_other by done.
           rewrite toggle_elem_other by done.
           by rewrite toggle_elem_same.
        -- by rewrite !toggle_elem_other.
  - intros Ha Hb.
    destruct (decide (Option.value a = Option.value b)) as [Hab|Hab].
    + rewrite !toggle_value. by rewrite Hab.
    + rewrite (toggle_value (Host.toggle props a)),
        (toggle_value (Host.toggle props b)).
      rewrite !decide_True
        by (rewrite toggle_elem_other; [done|congruence]).
      rewrite !toggle_value, !decide_True by done.
      rewrite !list_filter_filter. apply list_filter_iff. tauto.
Qed.

(** Selection [[1,2,3]]: removing 1 then 2, or 2 then 1, leaves [[3]]. *)
Lemma toggle_order_irrelevant_witness :
  Props.value
    (Host.toggle
       (Host.toggle (Host.set_value (Examples.props_AB None true)
                                    [JS.num 1; JS.num 2; JS.num 3])
                    Examples.optA)
       Examples.optB)
  = Props.value
      (Host.toggle
         (Host.toggle (Host.set_value (Examples.props_AB None true)
                                      [JS.num 1; JS.num 2; JS.num 3])
                      Examples.optB)
         Examples.optA).
Proof.
  apply (toggle_order_irrelevant
           (Host.set_value (Examples.props_AB None true)
                           [JS.num 1; JS.num 2; JS.num 3])
           Examples.optA Examples.optB);
    apply contains_true; reflexivity.
Defined.

(** ** Generated identifiers, layout classes and unused props *)

Section Row_facts.

Implicit Types (props : Props.t) (opt : Option.t).

(** The container id used in the generated ids: the [id] prop, or the
    private default when it is absent or empty. *)
Lemma listItem_id props opt :
  item_id (Checklist.listItem props opt)
  = "_" +:+ match Props.id props with
            | Some s => if decide (s = "") then "_dbcprivate_checklist" else s
            | None => "_dbcprivate_checklist"
            end
        +:+ "-" +:+ JS.to_string (Option.value opt).
Proof.
  unfold Checklist.listItem, JS.and_, JS.or_.
  destruct (Props.id props) as [s|]; simpl; [|done].
  destruct (decide (s = "")) as [->|Hs]; [done|].
  rewrite bool_decide_eq_false_2 by done. simpl.
  by destruct (Props.custom props).
Qed.

(** What a row shows apart from its checked state does not depend on the
    selection. *)
Lemma listItem_set_value_frame props sel opt :
  let row := Checklist.listItem props opt in
  let row' := Checklist.listItem (Host.set_value props sel) opt in
  item_key row' = item_key row
  ∧ item_label row' = item_label row
  ∧ item_disabled row' = item_disabled row
  ∧ is_custom row' = is_custom row
  ∧ item_id row' = item_id row.
Proof.
  intros row row'. subst row row'.
  rewrite !listItem_key, !listItem_label, !listItem_disabled,
    !listItem_is_custom, !listItem_id.
  done.
Qed.

End Row_facts.



(** X9.  [switch] is read only on the custom path, where it selects the
    type ["switch"] when true and ["checkbox"] otherwise.  A native row has
    type ["checkbox"] and is the same row whatever [switch] is. *)
Theorem switch_ignored_by_native_row
    (props : Props.t) (opt : Option.t) (sw : option bool) :
  is_custom (Checklist.listItem props opt) = false →
  ∃ d : FormCheck.t,
    Checklist.listItem props opt = Native d
    ∧ Checklist.listItem (With.switch sw props) opt = Native d
    ∧ Input.type (FormCheck.input d) = "checkbox".
Proof.
  unfold Checklist.listItem. simpl.
  destruct (JS.truthy _); simpl; [done|].
  intros _. eexists. split; [reflexivity|]. by split.
Qed.

(** Without an [id] the row is native; asking for a switch changes
    nothing. *)
Lemma switch_ignored_by_native_row_witness :
  ∃ d : FormCheck.t,
    Checklist.listItem (Examples.props_AB None true) Examples.optA = Native d
    ∧ Checklist.listItem
        (With.switch (Some true) (Examples.props_AB None true)) Examples.optA
      = Native d
    ∧ Input.type (FormCheck.input d) = "checkbox".
Proof.
  apply (switch_ignored_by_native_row
           (Examples.props_AB None true) Examples.optA (Some true)).
  reflexivity.
Defined.

(** X10.  On the custom path the type handed to [CustomInput] is
    ["switch"] exactly when [switch] is [true], and [inputStyle] is not
    used: the row is the same whatever [inputStyle] is.  The native input
    carries [inputStyle] as its style. *)
Theorem custom_row_type_and_inputStyle
    (props : Props.t) (opt : Option.t) (st : style_obj) :
  match Checklist.listItem props opt with
  | Custom c =>
      CustomInput.type c
      = (if decide (Props.switch props = Some true)
         then "switch" else "checkbox")
      ∧ Checklist.listItem (With.inputStyle st props) opt = Custom c
  | Native d =>
      Input.style (FormCheck.input d) = Props.inputStyle props
      ∧ ∃ d', Checklist.listItem (With.inputStyle st props) opt = Native d'
              ∧ Input.style (FormCheck.input d') = st
  end.
Proof.
  unfold Checklist.listItem. simpl.
  destruct (JS.truthy _); simpl.
  - split; [|done]. by destruct (Props.switch props) as [[]|].
  - split; [done|]. eexists. split; [reflexivity|done].
Qed.

(** X11.  The classes of a native row: the [div] is
    ["form-check form-check-inline"] when [inline] is true and
    ["form-check"] when it is false or absent; the input is
    ["form-check-input"], followed by [inputClassName] when that is not
    empty.  The custom path hands [inline] and [inputClassName] on
    unchanged. *)
Theorem row_layout_classes (props : Props.t) (opt : Option.t) :
  match Checklist.listItem props opt with
  | Custom c =>
      CustomInput.inline c = Props.inline props
      ∧ CustomInput.className c = Props.inputClassName props
  | Native d =>
      FormCheck.className d
      = (if decide (Props.inline props = Some true)
         then "form-check form-check-inline" else "form-check")
      ∧ Input.className (FormCheck.input d)
        = (if decide (Props.inputClassName props = "")
           then "form-check-input"
           else "form-check-input " +:+ Props.inputClassName props)
  end.
Proof.
  unfold Checklist.listItem. simpl.
  destruct (JS.truthy _); simpl; [done|].
  split.
  - by destruct (Props.inline props) as [[]|].
  - unfold ClassNames.classNames, ClassNames.tokens, ClassNames.token. simpl.
    destruct (decide (Props.inputClassName props = "")) as [->|Hne]; [done|].
    by rewrite bool_decide_eq_false_2.
Qed.

(** X12.  Rendering again after a toggle gives the same rows in the same
    order as far as keys, labels, ids, disabled state and rendering mode
    go, and the same root id and loading marker: only what depends on the
    selection changes. *)
Theorem render_after_toggle_keeps_rows (props : Props.t) (opt : Option.t) :
  let r := Checklist.render props in
  let r' := Checklist.render (Host.toggle props opt) in
  length (Root.children r') = length (Root.children r)
  ∧ item_key <$> Root.children r' = item_key <$> Root.children r
  ∧ item_label <$> Root.children r' = item_label <$> Root.children r
  ∧ item_id <$> Root.children r' = item_id <$> Root.children r
  ∧ item_disabled <$> Root.children r' = item_disabled <$> Root.children r
  ∧ is_custom <$> Root.children r' = is_custom <$> Root.children r
  ∧ Root.id r' = Root.id r
  ∧ Root.data_dash_is_loading r' = Root.data_dash_is_loading r.
Proof.
  intros r r'. subst r r'. rewrite toggle_set_value.
  unfold Checklist.render. simpl.
  rewrite !length_fmap, <- !list_fmap_compose.
  repeat split; apply list_fmap_ext; intros i o _; simpl;
    apply (listItem_set_value_frame props _ o).
Qed.

(** ** Two activations in the store *)

(** X13.  Activating the same rendered control twice, the host's array
    still in place, makes two [setProps] calls with two different new
    arrays that hold the same selection; the host's array keeps its
    contents throughout. *)
Theorem onChange_twice_allocates_twice
    (w : Store.world) (v : JS.val) (value : Store.loc) (sel : list JS.val) :
  Store.heap w !! value = Some sel →
  ∃ (first second : Store.loc) (w1 w2 : Store.world) (new_sel : list JS.val),
    Store.onChange v value w = Some (tt, w1)
    ∧ Store.onChange v value w1 = Some (tt, w2)
    ∧ first ≠ second ∧ first ≠ value ∧ second ≠ value
    ∧ Store.calls w2 = Store.calls w ++ [first; second]
    ∧ Store.heap w2 !! first = Some new_sel
    ∧ Store.heap w2 !! second = Some new_sel
    ∧ Store.heap w2 !! value = Some sel
    ∧ Checklist.onChange v sel = [Dash.setProps {| Dash.value := new_sel |}].
Proof.
  intros Hsel.
  destruct (store_onChange_run w v value sel Hsel)
    as (n1 & w1 & Hrun1 & Hfresh1 & Hsub1 & Hcalls1 & xs1 & Hn1 & Hxs1).
  assert (Store.heap w1 !! value = Some sel) as Hsel1
    by (by eapply lookup_weaken).
  destruct (store_onChange_run w1 v value sel Hsel1)
    as (n2 & w2 & Hrun2 & Hfresh2 & Hsub2 & Hcalls2 & xs2 & Hn2 & Hxs2).
  assert (xs2 = xs1) as -> by congruence.
  exists n1, n2, w1, w2, xs1.
  repeat split; try done.
  - congruence.
  - congruence.
  - congruence.
  - by rewrite Hcalls2, Hcalls1, <- app_assoc.
  - by eapply lookup_weaken.
  - by eapply lookup_weaken.
Qed.

(** The host's array [[1]] at address 1, the control of value 2 activated
    twice. *)
Lemma onChange_twice_allocates_twice_witness :
  ∃ (first second : Store.loc) (w1 w2 : Store.world) (new_sel : list JS.val),
    Store.onChange (JS.num 2) 1%positive Examples.world_1 = Some (tt, w1)
    ∧ Store.onChange (JS.num 2) 1%positive w1 = Some (tt, w2)
    ∧ first ≠ second ∧ first ≠ 1%positive ∧ second ≠ 1%positive
    ∧ Store.calls w2 = Store.calls Examples.world_1 ++ [first; second]
    ∧ Store.heap w2 !! first = Some new_sel
    ∧ Store.heap w2 !! second = Some new_sel
    ∧ Store.heap w2 !! 1%positive = Some [JS.num 1]
    ∧ Checklist.onChange (JS.num 2) [JS.num 1]
      = [Dash.setProps {| Dash.value := new_sel |}].
Proof.
  apply (onChange_twice_allocates_twice
           Examples.world_1 (JS.num 2) 1%positive [JS.num 1]).
  reflexivity.
Defined.
